(** * A shallow embedding of the wgpu demo: [main.rs] (application driver
    [EntryOn], [GfxState]) and [GpuFatory.rs] ([GpuFactory::new],
    [GpuFactory::render]).

    GPU objects are modelled by their descriptors, buffers by ids into a
    GPU memory map, and every call into wgpu / winit that is observable
    (configure, request_redraw, submit, present, println, ...) is an
    [Effect] appended to a trace.  Code runs in a state-and-panic monad
    over the [World] (device, queue, surface and platform). *)

From Stdlib Require Import ZArith String List.
From stdpp Require Import base gmap.
Import ListNotations.
Open Scope Z_scope.

(* ------------------------------------------------------------------ *)
(** ** wgpu types used by the program *)

Inductive TextureFormat :=
| Bgra8UnormSrgb | Bgra8Unorm | Rgba8UnormSrgb | Rgba8Unorm
| Rgba16Float | Rgb10a2Unorm | Depth32Float.

Definition TextureFormat_eqb (a b : TextureFormat) : bool :=
  match a, b with
  | Bgra8UnormSrgb, Bgra8UnormSrgb | Bgra8Unorm, Bgra8Unorm
  | Rgba8UnormSrgb, Rgba8UnormSrgb | Rgba8Unorm, Rgba8Unorm
  | Rgba16Float, Rgba16Float | Rgb10a2Unorm, Rgb10a2Unorm
  | Depth32Float, Depth32Float => true
  | _, _ => false
  end.

(** [wgpu::SurfaceConfiguration], the fields the program reads or writes
    ([width] and [height] are [u32]). *)
Record SurfaceConfiguration := mkSurfaceConfiguration {
  format : TextureFormat;
  width : Z;
  height : Z;
}.

Inductive ShaderStages := VERTEX | FRAGMENT | VERTEX_FRAGMENT.

(** A uniform-buffer [BindGroupLayoutEntry] (no dynamic offset, no
    minimum binding size, [count: None]). *)
Record BindGroupLayoutEntry := mkBindGroupLayoutEntry {
  bgl_binding : Z;
  bgl_visibility : ShaderStages;
}.

Definition BindGroupLayout := list BindGroupLayoutEntry.

(** A bind group: its layout and its entries (binding, buffer id). *)
Record BindGroup := mkBindGroup {
  bg_layout : BindGroupLayout;
  bg_entries : list (Z * nat);
}.

Definition PipelineLayout := list BindGroupLayout.

Inductive PrimitiveTopology :=
| PointList | LineList | LineStrip | TriangleList | TriangleStrip.
Inductive FrontFace := Ccw | Cw.
Inductive Face := Front | Back.
Inductive PolygonMode := Fill | Line | Point.

Record PrimitiveState := mkPrimitiveState {
  topology : PrimitiveTopology;
  front_face : FrontFace;
  cull_mode : option Face;
  polygon_mode : PolygonMode;
}.

(** [PrimitiveState::default()]. *)
Definition PrimitiveState_default : PrimitiveState :=
  mkPrimitiveState TriangleList Ccw None Fill.

Inductive BlendState := REPLACE | ALPHA_BLENDING | PREMULTIPLIED_ALPHA_BLENDING.
Inductive ColorWrites := ColorWrites_ALL | ColorWrites_COLOR | ColorWrites_ALPHA.

Record ColorTargetState := mkColorTargetState {
  ct_format : TextureFormat;
  ct_blend : option BlendState;
  ct_write_mask : ColorWrites;
}.

Record VertexState := mkVertexState {
  vs_module : nat;
  vs_entry_point : string;
  vs_buffers : list nat;           (* vertex buffer layouts *)
}.

Record FragmentState := mkFragmentState {
  fs_module : nat;
  fs_entry_point : string;
  fs_targets : list (option ColorTargetState);
}.

Record DepthStencilState := mkDepthStencilState { ds_format : TextureFormat }.

Record RenderPipelineDescriptor := mkRenderPipelineDescriptor {
  rp_layout : option PipelineLayout;
  rp_vertex : VertexState;
  rp_primitive : PrimitiveState;
  rp_depth_stencil : option DepthStencilState;
  rp_multisample_count : Z;        (* MultisampleState::default(): 1 *)
  rp_fragment : option FragmentState;
}.

(** A created pipeline is identified with the descriptor it was built from. *)
Definition RenderPipeline := RenderPipelineDescriptor.

(** [wgpu::Color] (components are f64; the program only uses constants). *)
Record Color := mkColor { color_r : Z; color_g : Z; color_b : Z; color_a : Z }.
Definition Color_BLACK : Color := mkColor 0 0 0 1.

Inductive LoadOp := Clear (c : Color) | Load.
Inductive StoreOp := Store | Discard.

Record RenderPassColorAttachment := mkRenderPassColorAttachment {
  ca_view : nat;                   (* the texture view of the frame *)
  ca_resolve_target : option nat;
  ca_load : LoadOp;
  ca_store : StoreOp;
}.

Record RenderPassDescriptor := mkRenderPassDescriptor {
  rpd_label : option string;
  rpd_color_attachments : list (option RenderPassColorAttachment);
  rpd_depth_stencil_attachment : option nat;
}.

(** Commands recorded into a render pass. *)
Inductive RenderCommand :=
| SetPipeline (p : RenderPipeline)
| SetBindGroup (index : Z) (bg : BindGroup) (offsets : list Z)
| SetVertexBuffer (slot : Z) (buf : nat)
| SetIndexBuffer (buf : nat)
| Draw (vertices : Z * Z) (instances : Z * Z).

Record RenderPass := mkRenderPass {
  pass_desc : RenderPassDescriptor;
  pass_commands : list RenderCommand;
}.

(** A finished command buffer: the passes recorded by its encoder. *)
Definition CommandBuffer := list RenderPass.

(** *** Render-pass validation (wgpu-core, [command_encoder_run_render_pass])

    A [wgpu::RenderPass] only records its commands; when it is dropped,
    wgpu-core replays them against the pass's attachments and the first
    failed check is reported as a validation error.  The checks that apply
    to the commands this program records: a pipeline's color targets,
    depth-stencil state and sample count must match the pass's attachments
    ([IncompatiblePipelineTargets]); a bind-group index must be below
    [max_bind_groups] and the offsets match the (non-dynamic) layout; a
    draw needs a pipeline, a bind group of the right layout at every slot
    of the pipeline layout, and a vertex buffer at every slot the pipeline
    declares. *)

Definition ShaderStages_eqb (a b : ShaderStages) : bool :=
  match a, b with
  | VERTEX, VERTEX | FRAGMENT, FRAGMENT | VERTEX_FRAGMENT, VERTEX_FRAGMENT => true
  | _, _ => false
  end.

Definition BindGroupLayoutEntry_eqb (e1 e2 : BindGroupLayoutEntry) : bool :=
  Z.eqb (bgl_binding e1) (bgl_binding e2)
  && ShaderStages_eqb (bgl_visibility e1) (bgl_visibility e2).

Fixpoint BindGroupLayout_eqb (l1 l2 : BindGroupLayout) : bool :=
  match l1, l2 with
  | [], [] => true
  | e1 :: r1, e2 :: r2 => BindGroupLayoutEntry_eqb e1 e2 && BindGroupLayout_eqb r1 r2
  | _, _ => false
  end.

Fixpoint color_formats_eqb (l1 l2 : list (option TextureFormat)) : bool :=
  match l1, l2 with
  | [], [] => true
  | None :: r1, None :: r2 => color_formats_eqb r1 r2
  | Some a :: r1, Some b :: r2 => TextureFormat_eqb a b && color_formats_eqb r1 r2
  | _, _ => false
  end.

(** [Limits::default()]: [max_bind_groups] and [max_vertex_buffers]. *)
Definition max_bind_groups : Z := 4.
Definition max_vertex_buffers : Z := 8.

(** The color-target formats a pipeline was built for. *)
Definition pipeline_color_formats (p : RenderPipeline) : list (option TextureFormat) :=
  match rp_fragment p with
  | Some fs => map (option_map ct_format) (fs_targets fs)
  | None => []
  end.

(** A pipeline can be set in a pass whose only attachment is one color
    view of format [fmt], sample count 1, and no depth-stencil view. *)
Definition pipeline_compatible (p : RenderPipeline) (fmt : TextureFormat) : bool :=
  color_formats_eqb (pipeline_color_formats p) [Some fmt]
  && match rp_depth_stencil p with None => true | Some _ => false end
  && Z.eqb (rp_multisample_count p) 1.

(** The bind group last set at [index]. *)
Fixpoint bound_group (index : Z) (bound : list (Z * BindGroup)) : option BindGroup :=
  match bound with
  | [] => None
  | (i, bg) :: rest => if Z.eqb i index then Some bg else bound_group index rest
  end.

Definition draw_ready (p : RenderPipeline) (bound : list (Z * BindGroup))
    (vbufs : list Z) : bool :=
  match rp_layout p with
  | Some pl =>
      forallb (fun '(i, l) =>
                 match bound_group i bound with
                 | Some bg => BindGroupLayout_eqb (bg_layout bg) l
                 | None => false
                 end)
        (imap (fun i l => (Z.of_nat i, l)) pl)
  | None => true
  end
  && forallb (fun slot => existsb (Z.eqb slot) vbufs)
       (map Z.of_nat (seq 0 (length (vs_buffers (rp_vertex p))))).

Fixpoint validate_pass_from (fmt : TextureFormat) (cur : option RenderPipeline)
    (bound : list (Z * BindGroup)) (vbufs : list Z) (cmds : list RenderCommand) : bool :=
  match cmds with
  | [] => true
  | SetPipeline p :: rest =>
      pipeline_compatible p fmt && validate_pass_from fmt (Some p) bound vbufs rest
  | SetBindGroup i bg offsets :: rest =>
      (0 <=? i) && (i <? max_bind_groups) && Nat.eqb (length offsets) 0
      && validate_pass_from fmt cur ((i, bg) :: bound) vbufs rest
  | SetVertexBuffer slot _ :: rest =>
      (0 <=? slot) && (slot <? max_vertex_buffers)
      && validate_pass_from fmt cur bound (slot :: vbufs) rest
  | SetIndexBuffer _ :: rest => validate_pass_from fmt cur bound vbufs rest
  | Draw _ _ :: rest =>
      match cur with
      | Some p => draw_ready p bound vbufs && validate_pass_from fmt cur bound vbufs rest
      | None => false
      end
  end.

(** The commands of a pass drawing into a frame of format [fmt] pass
    wgpu's checks. *)
Definition validate_pass (fmt : TextureFormat) (cmds : list RenderCommand) : bool :=
  validate_pass_from fmt None [] [] cmds.

(** What the platform reports for the next image acquisition. *)
Inductive SurfaceStatus := Good | Timeout | Outdated | Lost | OutOfMemory.

(** Observable calls into wgpu, winit and stdout. *)
Inductive Effect :=
| Println (s : string)
| CreateWindow (id : nat)
| CreateShaderModule (id : nat)
| CreateBuffer (id : nat)
| CreateBindGroupLayout (l : BindGroupLayout)
| CreateBindGroup (bg : BindGroup)
| CreatePipelineLayout (l : PipelineLayout)
| CreateRenderPipeline (d : RenderPipelineDescriptor)
| CreateDevice
| Configure (cfg : SurfaceConfiguration)
| RequestRedraw
| AcquireFrame (frame : nat)
| WriteBuffer (buf : nat)
| Submit (cbs : list CommandBuffer)
| Present (frame : nat)
| ExitEventLoop.

(** Effects that hand work to the GPU or the presentation engine. *)
Definition is_gpu_work (e : Effect) : bool :=
  match e with
  | WriteBuffer _ | Submit _ | Present _ => true
  | _ => false
  end.

(* ------------------------------------------------------------------ *)
(** ** winit events *)

Inductive ElementState := Pressed | Released.

(** Modelled from the spec: the key codes of [camera.rs]
    ([CameraController::process_events]) are not under src/; the spec only
    says that recognized keys drive the forward / backward / left / right
    flags and that every other key is unhandled. *)
Inductive PhysicalKey :=
| ForwardKey | BackwardKey | LeftKey | RightKey
| OtherKey (code : nat).

Record KeyEvent := mkKeyEvent {
  physical_key : PhysicalKey;
  state : ElementState;
}.

Inductive WindowEvent :=
| Resized (w h : Z)
| RedrawRequested
| KeyboardInput (event : KeyEvent) (is_synthetic : bool)
| CloseRequested
| OtherWindowEvent (n : nat).

(* ------------------------------------------------------------------ *)
(** ** Camera controller *)

(** Modelled from the spec: [CameraController] of [camera.rs] (not under
    src/): six movement flags and a fixed speed. *)
Record CameraController := mkCameraController {
  speed : Z;
  is_forward_pressed : bool;
  is_backward_pressed : bool;
  is_left_pressed : bool;
  is_right_pressed : bool;
  is_up_pressed : bool;
  is_down_pressed : bool;
}.

(** Modelled from the spec: [CameraController::new(speed)], all flags off. *)
Definition CameraController_new (s : Z) : CameraController :=
  mkCameraController s false false false false false false.

Inductive Flag := Forward | Backward | LeftF | RightF.

Definition flag (c : CameraController) (f : Flag) : bool :=
  match f with
  | Forward => is_forward_pressed c
  | Backward => is_backward_pressed c
  | LeftF => is_left_pressed c
  | RightF => is_right_pressed c
  end.

Definition set_flag (c : CameraController) (f : Flag) (v : bool) : CameraController :=
  let 'mkCameraController s fw bw l rt u d := c in
  match f with
  | Forward => mkCameraController s v bw l rt u d
  | Backward => mkCameraController s fw v l rt u d
  | LeftF => mkCameraController s fw bw v rt u d
  | RightF => mkCameraController s fw bw l v u d
  end.

Definition key_flag (k : PhysicalKey) : option Flag :=
  match k with
  | ForwardKey => Some Forward
  | BackwardKey => Some Backward
  | LeftKey => Some LeftF
  | RightKey => Some RightF
  | OtherKey _ => None
  end.

(** Modelled from the spec: [CameraController::process_events]: a
    recognized key sets its flag to [state == Pressed] and reports handled;
    any other key reports unhandled. *)
Definition process_events (c : CameraController) (ev : KeyEvent)
  : bool * CameraController :=
  let is_pressed := match state ev with Pressed => true | Released => false end in
  match key_flag (physical_key ev) with
  | Some f => (true, set_flag c f is_pressed)
  | None => (false, c)
  end.

(* ------------------------------------------------------------------ *)
(** ** Camera model *)

(** Modelled from the spec: [camera.rs] ([Camera], [CameraUniform],
    [Camera::build_view_projection_matrix], [CameraController::update_camera])
    is not under src/.  The spec describes them as floating-point vector
    maths (look-at composed with a perspective, eye moved by the flags);
    that maths is kept abstract: a camera model supplies the camera type,
    the matrix type, the identity matrix of [CameraUniform::new], the
    view-projection matrix of a camera, the controller's update step, and
    the camera literal of [GfxState::new] / [GpuFactory::new], whose aspect
    is [width as f32 / height as f32]. *)
Class CameraModel := {
  Camera : Type;
  Mat : Type;
  mat_identity : Mat;
  build_view_projection_matrix : Camera -> Mat;
  update_camera : CameraController -> Camera -> Camera;
  camera_literal : Z -> Z -> Camera;
}.

Section Program.
Context `{CM : CameraModel}.

(** Contents of a GPU buffer: the [TheFirstUniformBuffer] record or a
    [CameraUniform]. *)
Inductive BufData :=
| ScreenSize (w h : Z)
| CameraData (m : Mat).

(** Device, queue, surface and platform, as seen by the program. *)
Record World := mkWorld {
  w_mem : gmap nat BufData;          (* GPU buffer contents *)
  w_next : nat;                      (* next fresh object id *)
  w_configured : option SurfaceConfiguration;
  w_surface_status : SurfaceStatus;
  w_adapter : bool;                  (* a suitable adapter exists *)
  w_device_ok : bool;                (* [request_device] succeeds *)
  w_preferred_format : TextureFormat;
  w_inner_size : Z * Z;
  w_trace : list Effect;
}.

(** A computation either returns or panics; in both cases the world it
    leaves behind is kept, so that a panic shows what happened before it. *)
Inductive Result (A : Type) :=
| Ok (x : A) (w : World)
| Panic (msg : string) (w : World).
Arguments Ok {A}.
Arguments Panic {A}.

Definition M (A : Type) : Type := World -> Result A.

#[global] Instance M_ret : MRet M := fun A x w => Ok x w.
#[global] Instance M_bind : MBind M := fun A B k m w =>
  match m w with
  | Ok x w' => k x w'
  | Panic msg w' => Panic msg w'
  end.

Definition panic {A} (msg : string) : M A := fun w => Panic msg w.
Definition gets {A} (f : World -> A) : M A := fun w => Ok (f w) w.

(** The world after an effect is logged. *)
Definition log_world (w : World) (e : Effect) : World :=
  mkWorld (w_mem w) (w_next w) (w_configured w) (w_surface_status w)
    (w_adapter w) (w_device_ok w) (w_preferred_format w) (w_inner_size w)
    (w_trace w ++ [e]).

Definition emit (e : Effect) : M unit := fun w => Ok tt (log_world w e).

Definition println (s : string) : M unit := emit (Println s).

Definition fresh : M nat := fun w =>
  Ok (w_next w) (mkWorld (w_mem w) (S (w_next w)) (w_configured w)
                   (w_surface_status w) (w_adapter w) (w_device_ok w)
                   (w_preferred_format w) (w_inner_size w) (w_trace w)).

Definition write_mem (id : nat) (d : BufData) : M unit := fun w =>
  Ok tt (mkWorld (<[id := d]> (w_mem w)) (w_next w) (w_configured w)
           (w_surface_status w) (w_adapter w) (w_device_ok w)
           (w_preferred_format w) (w_inner_size w) (w_trace w)).

(** The world after the surface is configured with [cfg]. *)
Definition configured_world (w : World) (cfg : SurfaceConfiguration) : World :=
  mkWorld (w_mem w) (w_next w) (Some cfg) (w_surface_status w)
    (w_adapter w) (w_device_ok w) (w_preferred_format w) (w_inner_size w)
    (w_trace w).

Definition set_configured (cfg : SurfaceConfiguration) : M unit := fun w =>
  Ok tt (configured_world w cfg).

(** *** wgpu / winit calls *)

Definition create_window : M nat :=
  id ← fresh; emit (CreateWindow id);; mret id.

Definition create_shader_module : M nat :=
  id ← fresh; emit (CreateShaderModule id);; mret id.

Definition create_buffer : M nat :=
  id ← fresh; emit (CreateBuffer id);; mret id.

(** [create_buffer_init]: a buffer created with its contents. *)
Definition create_buffer_init (d : BufData) : M nat :=
  id ← create_buffer; write_mem id d;; mret id.

Definition create_bind_group_layout (l : BindGroupLayout) : M BindGroupLayout :=
  emit (CreateBindGroupLayout l);; mret l.

Definition create_bind_group (bg : BindGroup) : M BindGroup :=
  emit (CreateBindGroup bg);; mret bg.

Definition create_pipeline_layout (l : PipelineLayout) : M PipelineLayout :=
  emit (CreatePipelineLayout l);; mret l.

Definition create_render_pipeline (d : RenderPipelineDescriptor) : M RenderPipeline :=
  emit (CreateRenderPipeline d);; mret d.

(** [max_texture_dimension_2d] of [wgpu::Limits::default()], the limits
    the device is requested with. *)
Definition max_texture_dimension_2d : Z := 8192.

(** [surface.configure(&device, &config)].  wgpu validates the
    configuration against the device and reports a failure through
    [handle_error_fatal], which panics: a zero width or height
    ([ConfigureSurfaceError::ZeroArea]) and a side beyond
    [max_texture_dimension_2d] ([ConfigureSurfaceError::TooLarge]) are
    rejected before the surface is touched. *)
Definition configure_error (cfg : SurfaceConfiguration) : bool :=
  (width cfg =? 0) || (height cfg =? 0)
  || (max_texture_dimension_2d <? width cfg)
  || (max_texture_dimension_2d <? height cfg).

Definition configure (cfg : SurfaceConfiguration) : M unit :=
  if configure_error cfg
  then panic "Error in Surface::configure: Validation Error"
  else set_configured cfg;; emit (Configure cfg).

(** [window.request_redraw()]. *)
Definition request_redraw : M unit := emit RequestRedraw.

(** [surface.get_current_texture()]: a fresh frame, whose texture has the
    format the surface is configured with, or the surface error.  A surface
    that was never configured has no device to acquire from, and wgpu
    panics ([expect]) instead of returning. *)
Definition get_current_texture : M ((nat * TextureFormat) + SurfaceStatus) :=
  st ← gets w_surface_status;
  match st with
  | Good =>
      cfg ← gets w_configured;
      match cfg with
      | None => panic "Surface was not configured?"
      | Some c => fid ← fresh; emit (AcquireFrame fid);; mret (inl (fid, format c))
      end
  | e => mret (inr e)
  end.

(** [Result::unwrap]. *)
Definition unwrap_result {A E} (x : A + E) : M A :=
  match x with
  | inl v => mret v
  | inr _ => panic "called `Result::unwrap()` on an `Err` value"
  end.

(** [Option::unwrap]. *)
Definition unwrap_option {A} (x : option A) : M A :=
  match x with
  | Some v => mret v
  | None => panic "called `Option::unwrap()` on a `None` value"
  end.

(** [queue.submit(..)] and [frame.present()]. *)
Definition submit (cbs : list CommandBuffer) : M unit := emit (Submit cbs).
Definition present (fid : nat) : M unit := emit (Present fid).

(* ------------------------------------------------------------------ *)
(** ** Program state *)

Record CameraUniform := mkCameraUniform { view_proj : Mat }.

(** Modelled from the spec: [CameraUniform::new()] and
    [CameraUniform::update_view_proj], which stores the camera's
    view-projection matrix. *)
Definition CameraUniform_new : CameraUniform := mkCameraUniform mat_identity.
Definition update_view_proj (_ : CameraUniform) (c : Camera) : CameraUniform :=
  mkCameraUniform (build_view_projection_matrix c).

Record GpuFactory := mkGpuFactory {
  bind_group : list BindGroup;
  bind_group_layout : list BindGroupLayout;
  pipeline : list RenderPipeline;
  vertex_buffer : list nat;
  index_buffer : list nat;
  uniform_buffer : list nat;
  pipeline_layout : list PipelineLayout;
  shader : list nat;
  camera_uniform : CameraUniform;
  camera_buffer : nat;
  camera_bind_group : BindGroup;
}.

Definition set_camera_uniform (f : GpuFactory) (cu : CameraUniform) : GpuFactory :=
  mkGpuFactory (bind_group f) (bind_group_layout f) (pipeline f)
    (vertex_buffer f) (index_buffer f) (uniform_buffer f)
    (pipeline_layout f) (shader f) cu (camera_buffer f) (camera_bind_group f).

(** [GfxState]: the window id stands for the window; device, queue and
    surface live in the [World]. *)
Record GfxState := mkGfxState {
  window : nat;
  surface_config : SurfaceConfiguration;
  gpu_factory : option GpuFactory;
  camera_controller : CameraController;
  camera : Camera;
}.

Inductive EntryOn :=
| Loading
| Ready (app : GfxState).


Definition set_surface_config (app : GfxState) (cfg : SurfaceConfiguration) : GfxState :=
  mkGfxState (window app) cfg (gpu_factory app) (camera_controller app) (camera app).

Definition set_gpu_factory (app : GfxState) (f : option GpuFactory) : GfxState :=
  mkGfxState (window app) (surface_config app) f (camera_controller app) (camera app).

(* ------------------------------------------------------------------ *)
(** ** [GfxState::new] *)

(** Adapter and device negotiation: a missing adapter ([expect]) and a
    failed [request_device] ([unwrap]) are fatal; the surface configuration
    is [get_default_config] at the window's inner size, in the adapter's
    preferred format, and configuring the surface with it may panic. *)
Definition GfxState_new (win : nat) : M GfxState :=
  size ← gets w_inner_size;
  has_adapter ← gets w_adapter;
  if negb has_adapter then panic "No suitable GPU adapters found on the system!"
  else
    println "Using adapter";;
    device_ok ← gets w_device_ok;
    (* request_device(..).map_err(|_| anyhow!(..)).unwrap() *)
    (if negb device_ok
     then panic "called `Result::unwrap()` on an `Err` value: Failed to create device"
     else emit CreateDevice);;
    println "Device created";;
    fmt ← gets w_preferred_format;
    let surface_config := mkSurfaceConfiguration fmt (fst size) (snd size) in
    configure surface_config;;
    println "Gfx State Ready";;
    let cam := camera_literal (width surface_config) (height surface_config) in
    let camera_controller := CameraController_new 10 in
    mret (mkGfxState win surface_config None camera_controller cam).

(* ------------------------------------------------------------------ *)
(** ** [GpuFactory::new] *)

(** The render pipeline descriptor built by [GpuFactory::new]. *)
Definition pipeline_descriptor (sh : nat) (pl : PipelineLayout) : RenderPipelineDescriptor :=
  mkRenderPipelineDescriptor
    (Some pl)
    (mkVertexState sh "display_vs" [])
    (mkPrimitiveState TriangleList Ccw (cull_mode PrimitiveState_default) Fill)
    None
    1
    (Some (mkFragmentState sh "display_fs"
             [Some (mkColorTargetState Bgra8UnormSrgb None ColorWrites_ALL)])).

Definition GpuFactory_new (app : GfxState) : M GpuFactory :=
  sh ← create_shader_module;
  let uniform_data := ScreenSize (width (surface_config app)) (height (surface_config app)) in
  (* mapped_at_creation: copy_from_slice into the mapped range, then unmap *)
  ub ← create_buffer;
  write_mem ub uniform_data;;
  bgl ← create_bind_group_layout [mkBindGroupLayoutEntry 0 FRAGMENT];
  bg ← create_bind_group (mkBindGroup bgl [(0, ub)]);
  let cam := camera_literal (width (surface_config app)) (height (surface_config app)) in
  let cu := update_view_proj CameraUniform_new cam in
  cb ← create_buffer_init (CameraData (view_proj cu));
  cbgl ← create_bind_group_layout [mkBindGroupLayoutEntry 0 VERTEX];
  cbg ← create_bind_group (mkBindGroup cbgl [(0, cb)]);
  pl ← create_pipeline_layout [bgl; cbgl];
  p ← create_render_pipeline (pipeline_descriptor sh pl);
  mret (mkGpuFactory [bg] [bgl] [p] [] [] [ub] [pl] [sh] cu cb cbg).

(* ------------------------------------------------------------------ *)
(** ** [GpuFactory::render] *)

Definition display_pass_descriptor (frame : nat) : RenderPassDescriptor :=
  mkRenderPassDescriptor (Some "display pass"%string)
    [Some (mkRenderPassColorAttachment frame None (Clear Color_BLACK) Store)]
    None.

(** The commands recorded into the display pass: every pipeline, every
    bind group at its index, the camera bind group at 1, one draw. *)
Definition display_pass_commands (self : GpuFactory) : list RenderCommand :=
  map SetPipeline (pipeline self)
  ++ imap (fun index bg => SetBindGroup (Z.of_nat index) bg []) (bind_group self)
  ++ [SetBindGroup 1 (camera_bind_group self) []; Draw (0, 6) (0, 1)].

Definition render (self : GpuFactory) (app : GfxState) : M unit :=
  (* create_command_encoder has no observable effect *)
  println "Creating render pass";;
  acquired ← get_current_texture;
  surface_texture ← unwrap_result acquired;
  let '(frame, frame_format) := surface_texture in
  let render_pass := mkRenderPass (display_pass_descriptor frame)
                                  (display_pass_commands self) in
  println "Drawing";;
  (* the pass is dropped at the end of its block: its errors go to the
     device's default uncaptured-error handler, which panics *)
  (if validate_pass frame_format (pass_commands render_pass) then mret tt
   else panic "wgpu error: Validation Error");;
  let command_buffer : CommandBuffer := [render_pass] in
  submit [command_buffer];;
  present frame.

(* ------------------------------------------------------------------ *)
(** ** [ApplicationHandler for EntryOn] *)

Definition window_event (s : EntryOn) (event : WindowEvent) : M EntryOn :=
  match s with
  | Ready app =>
      match event with
      | Resized w h =>
          println "Resized";;
          let cfg := mkSurfaceConfiguration (format (surface_config app)) w h in
          let app := set_surface_config app cfg in
          configure (surface_config app);;
          request_redraw;;
          mret (Ready app)
      | RedrawRequested =>
          println "RedrawRequested";;
          let cam := update_camera (camera_controller app) (camera app) in
          f ← unwrap_option (gpu_factory app);
          let f := set_camera_uniform f (update_view_proj (camera_uniform f) cam) in
          let app := mkGfxState (window app) (surface_config app) (Some f)
                                (camera_controller app) cam in
          f ← unwrap_option (gpu_factory app);
          render f app;;
          mret (Ready app)
      | KeyboardInput ev _ =>
          println "KeyboardInput";;
          let '(handled, ctl) := process_events (camera_controller app) ev in
          let app := mkGfxState (window app) (surface_config app) (gpu_factory app)
                                ctl (camera app) in
          (if handled then request_redraw else mret tt);;
          mret (Ready app)
      | CloseRequested =>
          println "CloseRequested";;
          mret (Ready app)
      | OtherWindowEvent _ => mret (Ready app)
      end
  | Loading =>
      println "Not ready yet! in Loading";;
      mret Loading
  end.

Definition resumed (s : EntryOn) : M EntryOn :=
  match s with
  | Loading =>
      win ← create_window;
      println "async block";;
      gfx_state ← GfxState_new win;
      f ← GpuFactory_new gfx_state;
      let gfx_state := set_gpu_factory gfx_state (Some f) in
      println "Ready now!";;
      mret (Ready gfx_state)
  | Ready app => mret (Ready app)
  end.

End Program.

Arguments Ok {CM A}.
Arguments Panic {CM A}.
Arguments Ready {CM}.
Arguments Loading {CM}.
Arguments ScreenSize {CM}.
Arguments CameraData {CM}.

(* ------------------------------------------------------------------ *)
(** ** A concrete camera model and start-up world, for evaluation *)

(** A one-dimensional camera: the eye's distance from the target.  The
    backward flag moves it away by [speed] per update, as the spec's
    controller does; the view-projection "matrix" is the distance itself.
    Only used to run the program on concrete inputs. *)
Definition toy_camera : CameraModel := {|
  Camera := Z;
  Mat := Z;
  mat_identity := 0;
  build_view_projection_matrix := fun d => d;
  update_camera := fun ctl d => if is_backward_pressed ctl then d + speed ctl else d;
  camera_literal := fun _ _ => 2;
|}.

(** The world at start-up: nothing allocated, a 128x128 window (the size
    requested by [resumed]), an adapter preferring [fmt]. *)
Definition init_world {CM : CameraModel} (fmt : TextureFormat) (st : SurfaceStatus) : World :=
  mkWorld ∅ 0 None st true true fmt (128, 128) [].

(** Run a sequence of platform callbacks. *)
Inductive AppEvent :=
| Resumed
| WinEvent (ev : WindowEvent).

Definition handle {CM : CameraModel} (s : EntryOn) (e : AppEvent) : M EntryOn :=
  match e with
  | Resumed => resumed s
  | WinEvent ev => window_event s ev
  end.

Fixpoint run {CM : CameraModel} (s : EntryOn) (es : list AppEvent) : M EntryOn :=
  match es with
  | [] => mret s
  | e :: es => s' ← handle s e; run s' es
  end.

(* ================================================================== *)
(** * Properties *)

Section Facts.
Context `{CM : CameraModel}.

Definition result_world {A} (r : Result A) : World :=
  match r with Ok _ w => w | Panic _ w => w end.

(** [m] leaves the GPU memory as it found it, whether it returns or panics. *)
Definition keeps_mem {A} (m : M A) : Prop :=
  forall w, w_mem (result_world (m w)) = w_mem w.

(** [m] only appends to the trace, and none of what it appends satisfies [P]. *)
Definition adds_none (P : Effect -> bool) {A} (m : M A) : Prop :=
  forall w, exists l, w_trace (result_world (m w)) = w_trace w ++ l
                 /\ Forall (fun e => P e = false) l.

Lemma keeps_mem_ret {A} (x : A) : keeps_mem (mret x).
Proof. intros w. reflexivity. Qed.

Lemma keeps_mem_bind {A B} (m : M A) (k : A -> M B) :
  keeps_mem m -> (forall x, keeps_mem (k x)) -> keeps_mem (m ≫= k).
Proof.
  intros Hm Hk w. specialize (Hm w). cbv [mbind M_bind].
  destruct (m w) as [x w'|msg w']; simpl in *; [rewrite Hk|]; exact Hm.
Qed.

Lemma keeps_mem_emit e : keeps_mem (emit e).
Proof. intros w. reflexivity. Qed.

Lemma keeps_mem_fresh : keeps_mem fresh.
Proof. intros w. reflexivity. Qed.

Lemma keeps_mem_gets {A} (f : World -> A) : keeps_mem (gets f).
Proof. intros w. reflexivity. Qed.

Lemma keeps_mem_panic {A} msg : keeps_mem (panic (A:=A) msg).
Proof. intros w. reflexivity. Qed.

Lemma keeps_mem_set_configured cfg : keeps_mem (set_configured cfg).
Proof. intros w. reflexivity. Qed.

Lemma adds_none_ret P {A} (x : A) : adds_none P (mret x).
Proof. intros w. exists []. rewrite app_nil_r. auto. Qed.

Lemma adds_none_bind P {A B} (m : M A) (k : A -> M B) :
  adds_none P m -> (forall x, adds_none P (k x)) -> adds_none P (m ≫= k).
Proof.
  intros Hm Hk w. destruct (Hm w) as [l1 [Ht1 Hf1]]. cbv [mbind M_bind].
  destruct (m w) as [x w'|msg w']; simpl in *.
  - destruct (Hk x w') as [l2 [Ht2 Hf2]]. exists (l1 ++ l2).
    rewrite Ht2, Ht1, app_assoc. split; [reflexivity|]. apply Forall_app; auto.
  - exists l1. auto.
Qed.

Lemma adds_none_emit P e : P e = false -> adds_none P (emit e).
Proof. intros He w. exists [e]. auto. Qed.

Lemma adds_none_fresh P : adds_none P fresh.
Proof. intros w. exists []. rewrite app_nil_r. auto. Qed.

Lemma adds_none_gets P {A} (f : World -> A) : adds_none P (gets f).
Proof. intros w. exists []. rewrite app_nil_r. auto. Qed.

Lemma adds_none_panic P {A} msg : adds_none P (panic (A:=A) msg).
Proof. intros w. exists []. rewrite app_nil_r. auto. Qed.

Lemma adds_none_set_configured P cfg : adds_none P (set_configured cfg).
Proof. intros w. exists []. rewrite app_nil_r. auto. Qed.

(** Whenever [m] returns, its value satisfies [P]. *)
Definition returns {A} (P : A -> Prop) (m : M A) : Prop :=
  forall w, match m w with Ok x _ => P x | Panic _ _ => True end.

Lemma returns_ret {A} (P : A -> Prop) (x : A) : P x -> returns P (mret x).
Proof. intros Hx w. exact Hx. Qed.

Lemma returns_bind {A B} (P : B -> Prop) (m : M A) (k : A -> M B) :
  (forall x, returns P (k x)) -> returns P (m ≫= k).
Proof.
  intros Hk w. cbv [mbind M_bind]. destruct (m w) as [x w'|msg w']; [apply Hk|exact I].
Qed.

End Facts.

#[global] Arguments configure_error : simpl never.

Lemma configure_error_ok (cfg : SurfaceConfiguration) :
  0 < width cfg <= max_texture_dimension_2d ->
  0 < height cfg <= max_texture_dimension_2d ->
  configure_error cfg = false.
Proof.
  unfold configure_error, max_texture_dimension_2d. intros [Hw1 Hw2] [Hh1 Hh2].
  rewrite (proj2 (Z.eqb_neq _ _)) by lia. rewrite (proj2 (Z.eqb_neq (height cfg) 0)) by lia.
  rewrite (proj2 (Z.ltb_ge _ _)) by lia. rewrite (proj2 (Z.ltb_ge _ (height cfg))) by lia.
  reflexivity.
Qed.

Create HintDb mprops.
#[export] Hint Resolve keeps_mem_ret keeps_mem_emit keeps_mem_fresh keeps_mem_gets
  keeps_mem_panic keeps_mem_set_configured : mprops.
#[export] Hint Resolve adds_none_ret adds_none_fresh adds_none_gets
  adds_none_panic adds_none_set_configured : mprops.

(** Walk through a monadic program: split binds, case on matches. *)
Ltac mwalk :=
  repeat match goal with
  | |- keeps_mem (mbind _ _) => apply keeps_mem_bind; intros
  | |- adds_none _ (mbind _ _) => apply adds_none_bind; intros
  | |- adds_none _ (emit _) => apply adds_none_emit; reflexivity
  | |- context [match ?x with _ => _ end] => destruct x
  end; eauto with mprops.

(** Evaluate the monadic plumbing of the program on a symbolic world. *)
Ltac mrun :=
  cbv beta iota zeta delta [mbind M_bind mret M_ret emit println fresh gets panic
    write_mem set_configured create_window create_shader_module
    create_buffer create_buffer_init create_bind_group_layout create_bind_group
    create_pipeline_layout create_render_pipeline configure request_redraw
    get_current_texture unwrap_result unwrap_option submit present
    GpuFactory_new GfxState_new render window_event resumed].

Ltac mrun_in H :=
  cbv beta iota zeta delta [mbind M_bind mret M_ret emit println fresh gets panic
    write_mem set_configured create_window create_shader_module
    create_buffer create_buffer_init create_bind_group_layout create_bind_group
    create_pipeline_layout create_render_pipeline configure request_redraw
    get_current_texture unwrap_result unwrap_option submit present
    GpuFactory_new GfxState_new render window_event resumed] in H.

(** Effects of the one-time initialisation: a window, a device. *)
Definition is_init (e : Effect) : bool :=
  match e with
  | CreateWindow _ | CreateDevice => true
  | _ => false
  end.

Section Handlers.
Context `{CM : CameraModel}.

Lemma render_keeps_mem f app : keeps_mem (render f app).
Proof.
  unfold render, get_current_texture, unwrap_result, println, submit, present.
  mwalk.
Qed.

Lemma render_adds_no_init f app : adds_none is_init (render f app).
Proof.
  unfold render, get_current_texture, unwrap_result, println, submit, present.
  mwalk.
Qed.

Lemma window_event_keeps_mem s ev : keeps_mem (window_event s ev).
Proof.
  destruct s as [|app]; [|destruct ev]; unfold window_event;
    unfold println, configure, request_redraw, unwrap_option; mwalk;
    apply render_keeps_mem.
Qed.

Lemma window_event_adds_no_init s ev : adds_none is_init (window_event s ev).
Proof.
  destruct s as [|app]; [|destruct ev]; unfold window_event;
    unfold println, configure, request_redraw, unwrap_option; mwalk;
    apply render_adds_no_init.
Qed.

Definition is_ready (s : EntryOn) : bool :=
  match s with Ready _ => true | Loading => false end.

(** A window event never changes which variant the driver is in. *)
Lemma window_event_variant s ev w :
  match window_event s ev w with
  | Ok s' _ => is_ready s' = is_ready s
  | Panic _ _ => True
  end.
Proof.
  destruct s as [|app]; [reflexivity|].
  cut (returns (fun s' => is_ready s' = true) (window_event (Ready app) ev));
    [intros H; exact (H w)|].
  destruct ev; unfold window_event;
    repeat first [ apply returns_bind; intros
                 | apply returns_ret; reflexivity
                 | match goal with |- context [match ?x with _ => _ end] => destruct x end ].
Qed.

(** The display pass only depends on the factory's pipelines and bind
    groups, not on its camera uniform. *)
Lemma display_pass_commands_set (f : GpuFactory) (cu : CameraUniform) :
  display_pass_commands (set_camera_uniform f cu) = display_pass_commands f.
Proof. reflexivity. Qed.

(** [render] on a configured surface with an image available, for a
    factory whose display pass passes wgpu's checks at the surface
    format. *)
Lemma render_frame_gen (f : GpuFactory) (app : GfxState) (w : World)
    (cfg : SurfaceConfiguration)
    (Hgood : w_surface_status w = Good) (Hcfg : w_configured w = Some cfg)
    (Hvalid : validate_pass (format cfg) (display_pass_commands f) = true) :
  exists w',
    render f app w = Ok tt w'
    /\ w_trace w' = w_trace w ++
         [Println "Creating render pass"; AcquireFrame (w_next w); Println "Drawing";
          Submit [[mkRenderPass (display_pass_descriptor (w_next w))
                                (display_pass_commands f)]];
          Present (w_next w)]
    /\ w_next w' = S (w_next w)
    /\ w_mem w' = w_mem w
    /\ w_configured w' = w_configured w
    /\ w_inner_size w' = w_inner_size w.
Proof.
  eexists. mrun. cbn -[validate_pass display_pass_commands].
  rewrite Hgood. cbn -[validate_pass display_pass_commands].
  rewrite Hcfg. cbn -[validate_pass display_pass_commands]. rewrite Hvalid. split; [reflexivity|].
  unfold log_world; cbn. rewrite <- ?app_assoc. auto.
Qed.

(** [render] on a configured surface with an image available, for a
    factory whose display pass fails wgpu's checks: the pass is recorded,
    and dropping it panics, so there is no submit and no present. *)
Lemma render_invalid_gen (f : GpuFactory) (app : GfxState) (w : World)
    (cfg : SurfaceConfiguration)
    (Hgood : w_surface_status w = Good) (Hcfg : w_configured w = Some cfg)
    (Hinvalid : validate_pass (format cfg) (display_pass_commands f) = false) :
  exists w',
    render f app w = Panic "wgpu error: Validation Error" w'
    /\ w_trace w' = w_trace w ++
         [Println "Creating render pass"; AcquireFrame (w_next w); Println "Drawing"]
    /\ w_mem w' = w_mem w
    /\ w_configured w' = w_configured w.
Proof.
  eexists. mrun. cbn -[validate_pass display_pass_commands].
  rewrite Hgood. cbn -[validate_pass display_pass_commands].
  rewrite Hcfg. cbn -[validate_pass display_pass_commands]. rewrite Hinvalid. split; [reflexivity|].
  unfold log_world; cbn. rewrite <- ?app_assoc. auto.
Qed.

(** On a factory built by [GpuFactory::new], with any camera uniform
    stored since, the display pass passes wgpu's checks exactly when the
    frame's format is [Bgra8UnormSrgb], the pipeline's fixed target. *)
Lemma factory_pass_valid_gen (app0 : GfxState) (w0 : World) (f : GpuFactory) (w1 : World)
    (Hnew : GpuFactory_new app0 w0 = Ok f w1) (cu : CameraUniform) (fmt : TextureFormat) :
  validate_pass fmt (display_pass_commands (set_camera_uniform f cu))
  = TextureFormat_eqb fmt Bgra8UnormSrgb.
Proof.
  revert Hnew. mrun. intros Hnew. injection Hnew as <- _.
  destruct fmt; reflexivity.
Qed.

End Handlers.

Section Claims.
Context `{CM : CameraModel}.

(** C3: in the [Loading] state every window event only prints
    "Not ready yet! in Loading": the state stays [Loading], no panic, the
    world changes only by that log line, which is no GPU work. *)
Theorem window_event_loading_noop (ev : WindowEvent) (w : World) :
  window_event Loading ev w
    = Ok Loading (log_world w (Println "Not ready yet! in Loading"))
  /\ is_gpu_work (Println "Not ready yet! in Loading") = false.
Proof. split; reflexivity. Qed.

(** C9: [CloseRequested] in [Ready] only prints "CloseRequested": the
    application state and the world are unchanged apart from that line;
    no GPU work, no exit of the event loop. *)
Theorem close_requested_noop (app : GfxState) (w : World) :
  window_event (Ready app) CloseRequested w
    = Ok (Ready app) (log_world w (Println "CloseRequested")).
Proof. reflexivity. Qed.

(** C6: a [Resized] event with a zero width or height in [Ready] (winit
    sends [Resized(0, 0)] when the window is minimised) does not reach
    the redraw request: the configuration is passed to [surface.configure],
    which rejects a zero area and panics right after "Resized" is printed;
    the surface is not reconfigured. *)
Theorem resized_zero_area_panics (app : GfxState) (N : Z) (w : World) :
  window_event (Ready app) (Resized 0 N) w
    = Panic "Error in Surface::configure: Validation Error" (log_world w (Println "Resized"))
  /\ window_event (Ready app) (Resized N 0) w
    = Panic "Error in Surface::configure: Validation Error" (log_world w (Println "Resized")).
Proof.
  split; mrun; cbn; unfold configure_error; cbn; rewrite ?orb_true_r; reflexivity.
Qed.

(** C7: [GpuFactory::new] writes the screen-size uniform buffer once, with
    the surface configuration's width and height (the only other buffer
    write is the camera buffer, a different buffer); a [Resized] event,
    whether it returns or panics, leaves all GPU buffer contents, hence
    that buffer, unchanged. *)
Theorem screen_size_uniform_once (app : GfxState) (w : World) :
  (exists f w' ub,
      GpuFactory_new app w = Ok f w'
      /\ uniform_buffer f = [ub]
      /\ camera_buffer f <> ub
      /\ w_mem w' = <[camera_buffer f := CameraData (view_proj (camera_uniform f))]>
                      (<[ub := ScreenSize (width (surface_config app))
                                          (height (surface_config app))]> (w_mem w)))
  /\ (forall W H : Z, keeps_mem (window_event (Ready app) (Resized W H))).
Proof.
  split.
  - eexists _, _, _. split; [mrun; reflexivity|]. cbn. split; [reflexivity|].
    split; [lia|reflexivity].
  - intros W H. exact (window_event_keeps_mem (Ready app) (Resized W H)).
Qed.

(** C5: if the surface image cannot be acquired, [render] panics right at
    the [unwrap]: nothing after "Creating render pass" happens (no retry,
    no reconfiguration, no submit, no present).  A redraw request in
    [Ready] then panics the same way. *)
Theorem acquire_failure_fatal (f : GpuFactory) (app : GfxState) (w : World)
    (Hbad : w_surface_status w <> Good) :
  render f app w
    = Panic "called `Result::unwrap()` on an `Err` value"
        (log_world w (Println "Creating render pass"))
  /\ (gpu_factory app = Some f ->
      exists w', window_event (Ready app) RedrawRequested w
                   = Panic "called `Result::unwrap()` on an `Err` value" w'
                 /\ w_trace w' = w_trace w ++
                      [Println "RedrawRequested"; Println "Creating render pass"]
                 /\ w_configured w' = w_configured w).
Proof.
  split.
  - mrun. cbn. destruct (w_surface_status w); [congruence|..]; reflexivity.
  - intros Hf. mrun. rewrite Hf. cbn.
    destruct (w_surface_status w); [congruence|..];
      (eexists; split; [reflexivity|]; simpl; rewrite <- app_assoc; auto).
Qed.

(** A redraw in [Ready] moves the camera and recomputes the host-side
    [camera_uniform]; the GPU memory, camera buffer included, is left as
    it was: no buffer is written. *)
Lemma redraw_keeps_camera_buffer (app : GfxState) (f : GpuFactory) (w : World)
    (cfg : SurfaceConfiguration)
    (Hf : gpu_factory app = Some f) (Hgood : w_surface_status w = Good)
    (Hcfg : w_configured w = Some cfg)
    (Hvalid : validate_pass (format cfg) (display_pass_commands f) = true) :
  exists app' w',
    window_event (Ready app) RedrawRequested w = Ok (Ready app') w'
    /\ camera app' = update_camera (camera_controller app) (camera app)
    /\ gpu_factory app'
         = Some (set_camera_uniform f
                   (mkCameraUniform (build_view_projection_matrix (camera app'))))
    /\ w_mem w' = w_mem w.
Proof.
  cbv [window_event mbind M_bind mret M_ret println emit unwrap_option]. rewrite Hf.
  cbn -[render].
  match goal with |- context [render ?a ?b ?c] =>
    destruct (render_frame_gen a b c cfg Hgood Hcfg Hvalid) as (w' & E & _ & _ & Hm & _);
    rewrite E end.
  do 2 eexists. split; [reflexivity|]. split; [reflexivity|]. split; [reflexivity|].
  exact Hm.
Qed.

(** The pipeline of [GpuFactory::new] is a single pipeline with
    triangle-list topology, counter-clockwise front face, no culling, filled polygons, no depth/stencil, and one color
    target of the fixed format [Bgra8UnormSrgb], no blending, whatever the
    surface configuration. *)
Theorem pipeline_fixed_format (app : GfxState) (w : World) :
  exists f w' p fs,
    GpuFactory_new app w = Ok f w'
    /\ pipeline f = [p]
    /\ rp_primitive p = mkPrimitiveState TriangleList Ccw None Fill
    /\ rp_depth_stencil p = None
    /\ rp_fragment p = Some fs
    /\ fs_targets fs = [Some (mkColorTargetState Bgra8UnormSrgb None ColorWrites_ALL)].
Proof.
  do 4 eexists. split; [mrun; reflexivity|]. repeat split.
Qed.

End Claims.

Section Controller.

(** C8 (as the model has it): for every controller state and every
    recognized key, each event is handled on its own: a press sets the
    key's flag, a release clears it, and neither touches the other flags,
    the up/down flags or the speed; so a press followed by a release leaves
    the flag cleared, which restores it exactly when it was off before the
    press.  Any other key is unhandled and changes nothing. *)
Theorem press_release_flags (c : CameraController) (k : PhysicalKey) :
  match key_flag k with
  | Some f =>
      (forall st : ElementState,
         let '(h, c') := process_events c (mkKeyEvent k st) in
         h = true
         /\ flag c' f = match st with Pressed => true | Released => false end
         /\ (forall g, g <> f -> flag c' g = flag c g)
         /\ speed c' = speed c
         /\ is_up_pressed c' = is_up_pressed c
         /\ is_down_pressed c' = is_down_pressed c)
      /\ (let c2 := snd (process_events (snd (process_events c (mkKeyEvent k Pressed)))
                                        (mkKeyEvent k Released)) in
          flag c2 f = false /\ (flag c f = false -> flag c2 f = flag c f))
  | None => forall st, process_events c (mkKeyEvent k st) = (false, c)
  end.
Proof.
  destruct c as [s fw bw l rt u d].
  destruct k; simpl; try (intros st; reflexivity);
    (split; [intros st; destruct st; simpl;
             repeat split; auto; intros g Hg; destruct g; simpl; congruence
            | simpl; auto]).
Qed.

End Controller.

Fixpoint count_of (P : Effect -> bool) (l : list Effect) : nat :=
  match l with
  | [] => 0
  | e :: l => (if P e then 1 else 0) + count_of P l
  end%nat.

Definition is_create_window (e : Effect) : bool :=
  match e with CreateWindow _ => true | _ => false end.

Definition is_create_device (e : Effect) : bool :=
  match e with CreateDevice => true | _ => false end.

Lemma count_of_app P l1 l2 : count_of P (l1 ++ l2) = (count_of P l1 + count_of P l2)%nat.
Proof. induction l1 as [|e l1 IH]; simpl; [|rewrite IH]; lia. Qed.

Lemma count_of_none P Q l :
  (forall e, P e = true -> Q e = true) -> Forall (fun e => Q e = false) l ->
  count_of P l = 0%nat.
Proof.
  intros HPQ Hl. induction Hl as [|e l He Hl IH]; simpl; [reflexivity|].
  destruct (P e) eqn:E; [apply HPQ in E; congruence|]. exact IH.
Qed.

Section Init.
Context `{CM : CameraModel}.

Lemma resumed_ready_noop (app : GfxState) (w : World) :
  resumed (Ready app) w = Ok (Ready app) w.
Proof. reflexivity. Qed.

(** From [Loading], [resumed] creates one window and at most one device,
    and ends in [Ready] unless it panics. *)
Lemma resumed_loading (w : World) :
  (exists l, w_trace (result_world (resumed Loading w)) = w_trace w ++ l
        /\ (count_of is_create_window l <= 1)%nat
        /\ (count_of is_create_device l <= 1)%nat)
  /\ match resumed Loading w with
     | Ok s _ => is_ready s = true
     | Panic _ _ => True
     end.
Proof.
  mrun. cbn.
  repeat (match goal with |- context [match ?b with true => _ | false => _ end] =>
            destruct b end; cbn).
  all: split; [eexists; rewrite <- ?app_assoc; split; [reflexivity|]; cbn; lia
              | first [reflexivity | exact I]].
Qed.

Lemma run_count (P : Effect -> bool)
    (HP : forall e, P e = true -> is_init e = true)
    (Hres : forall w, exists l, w_trace (result_world (resumed Loading w)) = w_trace w ++ l
                          /\ (count_of P l <= 1)%nat) :
  forall (es : list AppEvent) (s : EntryOn) (w : World),
    exists l, w_trace (result_world (run s es w)) = w_trace w ++ l
         /\ (count_of P l <= if is_ready s then 0 else 1)%nat.
Proof.
  induction es as [|e es IH]; intros s w.
  - exists []. simpl. rewrite app_nil_r. split; [reflexivity|]. destruct (is_ready s); lia.
  - cbn [run]. cbv [mbind M_bind].
    assert (Hstep : exists l1, w_trace (result_world (handle s e w)) = w_trace w ++ l1
              /\ (count_of P l1 <= if is_ready s then 0 else 1)%nat
              /\ match handle s e w with
                 | Ok s' _ => (is_ready s = true -> is_ready s' = true)
                              /\ (count_of P l1 = 0%nat \/ is_ready s' = true)
                 | Panic _ _ => True
                 end).
    { destruct e as [|ev]; simpl.
      - destruct s as [|app].
        + destruct (Hres w) as [l1 [Ht Hc]]. exists l1. split; [exact Ht|].
          split; [exact Hc|]. pose proof (proj2 (resumed_loading w)) as Hr.
          destruct (resumed Loading w); [|exact I]. split; [discriminate|]. auto.
        + exists []. rewrite app_nil_r. split; [reflexivity|]. simpl. lia.
      - destruct (window_event_adds_no_init s ev w) as [l1 [Ht Hf]].
        pose proof (count_of_none P is_init l1 HP Hf) as H0.
        exists l1. split; [exact Ht|]. split; [rewrite H0; destruct (is_ready s); lia|].
        pose proof (window_event_variant s ev w) as Hv.
        destruct (window_event s ev w); [|exact I].
        split; [congruence|]. auto. }
    destruct Hstep as [l1 [Ht1 [Hc1 Hs]]].
    destruct (handle s e w) as [s' w'|msg w'] eqn:E; simpl in *.
    + destruct (IH s' w') as [l2 [Ht2 Hc2]]. exists (l1 ++ l2).
      rewrite Ht2, Ht1, app_assoc. split; [reflexivity|].
      rewrite count_of_app. destruct Hs as [Hr [H0|H0]].
      * rewrite H0. destruct (is_ready s) eqn:Es;
          [rewrite (Hr eq_refl) in Hc2|destruct (is_ready s')]; lia.
      * rewrite H0 in Hc2. lia.
    + exists l1. auto.
Qed.

(** C10: the driver never leaves [Ready]: [resumed] in [Ready] returns the
    same state and world (nothing created), and no window event in [Ready]
    leads out of [Ready].  Hence over any sequence of platform callbacks
    from [Loading], at most one window and at most one device are created. *)
Theorem init_at_most_once :
  (forall (app : GfxState) (w : World), resumed (Ready app) w = Ok (Ready app) w)
  /\ (forall (app : GfxState) (ev : WindowEvent) (w : World),
        match window_event (Ready app) ev w with
        | Ok s _ => is_ready s = true
        | Panic _ _ => True
        end)
  /\ (forall (es : list AppEvent) (w : World),
        exists l, w_trace (result_world (run Loading es w)) = w_trace w ++ l
             /\ (count_of is_create_window l <= 1)%nat
             /\ (count_of is_create_device l <= 1)%nat).
Proof.
  split; [exact resumed_ready_noop|]. split.
  - intros app ev w. exact (window_event_variant (Ready app) ev w).
  - intros es w.
    destruct (run_count is_create_window) with (es := es) (s := Loading) (w := w)
      as [l1 [Ht1 Hc1]].
    { intros []; simpl; congruence. }
    { intros w0. destruct (proj1 (resumed_loading w0)) as [l [Ht [Hc _]]]. eauto. }
    destruct (run_count is_create_device) with (es := es) (s := Loading) (w := w)
      as [l2 [Ht2 Hc2]].
    { intros []; simpl; congruence. }
    { intros w0. destruct (proj1 (resumed_loading w0)) as [l [Ht [_ Hc]]]. eauto. }
    rewrite Ht1 in Ht2. apply app_inv_head in Ht2. subst l2.
    exists l1. auto.
Qed.

End Init.

(* ------------------------------------------------------------------ *)
(** ** The program on concrete inputs *)

Module Concrete.
#[local] Existing Instance toy_camera.

(** A world whose adapter prefers [Bgra8UnormSrgb] (the pipeline's fixed
    target) and whose surface images can be acquired; the same with a lost
    surface; and a world whose adapter prefers [Bgra8Unorm]. *)
Definition w_init : World := init_world Bgra8UnormSrgb Good.
Definition w_lost : World := init_world Bgra8UnormSrgb Lost.
Definition w_unorm : World := init_world Bgra8Unorm Good.

(** The [GfxState] that [GfxState::new] builds on [w_init]. *)
Definition startup_app : GfxState :=
  mkGfxState 0 (mkSurfaceConfiguration Bgra8UnormSrgb 128 128) None
    (CameraController_new 10) 2.

Example startup_app_reached :
  exists w', GfxState_new 0 w_init = Ok startup_app w'.
Proof. eexists. vm_compute. reflexivity. Qed.

Definition startup_factory : GpuFactory :=
  match GpuFactory_new startup_app w_init with
  | Ok f _ => f
  | Panic _ _ => mkGpuFactory [] [] [] [] [] [] [] [] CameraUniform_new 0 (mkBindGroup [] [])
  end.

Definition startup_world : World := result_world (GpuFactory_new startup_app w_init).

Lemma startup_factory_eq :
  GpuFactory_new startup_app w_init = Ok startup_factory startup_world.
Proof. vm_compute. reflexivity. Qed.

(** The state and world after [resumed] on [w_init]. *)
Definition ready_app : GfxState :=
  match resumed Loading w_init with
  | Ok (Ready app) _ => app
  | _ => startup_app
  end.

Definition ready_world : World := result_world (resumed Loading w_init).

Lemma ready_eq : resumed Loading w_init = Ok (Ready ready_app) ready_world.
Proof. vm_compute. reflexivity. Qed.

Definition backward_press : AppEvent :=
  WinEvent (KeyboardInput (mkKeyEvent BackwardKey Pressed) false).

(** C1: start-up, a press of the backward key, a redraw, which renders.
    The camera has moved (eye distance 2 -> 12) and the host-side camera
    uniform holds its new view-projection matrix, but the GPU camera
    buffer still holds the matrix uploaded at construction: the redraw
    does not re-upload it. *)
Theorem redraw_camera_buffer_stale :
  match run Loading [Resumed; backward_press; WinEvent RedrawRequested] w_init with
  | Ok (Ready app) w =>
      match gpu_factory app with
      | Some f =>
          (exists frame, last (w_trace w) = Some (Present frame))
          /\ view_proj (camera_uniform f) = build_view_projection_matrix (camera app)
          /\ build_view_projection_matrix (camera app) = 12
          /\ w_mem w !! camera_buffer f = Some (CameraData 2)
          /\ w_mem w !! camera_buffer f
               <> Some (CameraData (build_view_projection_matrix (camera app)))
      | None => False
      end
  | _ => False
  end.
Proof. vm_compute. split; [eexists; reflexivity|]. repeat split; discriminate. Qed.

(** C2: on an adapter preferring [Bgra8Unorm], [GfxState::new] configures
    the surface with [Bgra8Unorm] while [GpuFactory::new] builds its
    pipeline for [Bgra8UnormSrgb]: the display pass fails wgpu's check,
    and the first redraw panics. *)
Theorem pipeline_surface_format_mismatch :
  match resumed Loading w_unorm with
  | Ok (Ready app) w =>
      w_configured w = Some (surface_config app)
      /\ format (surface_config app) = Bgra8Unorm
      /\ match gpu_factory app with
         | Some f =>
             map pipeline_color_formats (pipeline f) = [[Some Bgra8UnormSrgb]]
             /\ validate_pass (format (surface_config app)) (display_pass_commands f) = false
             /\ exists w', window_event (Ready app) RedrawRequested w
                             = Panic "wgpu error: Validation Error" w'
         | None => False
         end
  | _ => False
  end.
Proof. vm_compute. repeat split. eexists. reflexivity. Qed.

(** C4: on the same platform, the first render records the display pass,
    prints "Drawing" and panics at the end of the pass: nothing is ever
    submitted or presented. *)
Theorem render_format_mismatch_no_submit :
  match run Loading [Resumed; WinEvent RedrawRequested] w_unorm with
  | Panic msg w' =>
      msg = "wgpu error: Validation Error"%string
      /\ (exists frame, firstn 4 (rev (w_trace w'))
                        = [Println "Drawing"; AcquireFrame frame;
                           Println "Creating render pass"; Println "RedrawRequested"])
      /\ Forall (fun e => is_gpu_work e = false) (w_trace w')
  | Ok _ _ => False
  end.
Proof.
  vm_compute. split; [reflexivity|]. split; [eexists; reflexivity|].
  repeat constructor.
Qed.

(** C8: the claim fails when the flag is already set before the press
    (e.g. a repeated press): press then release leaves it cleared. *)
Lemma press_release_restores_cex :
  ~ (forall (c : CameraController) (k : PhysicalKey) (f : Flag),
       key_flag k = Some f ->
       flag (snd (process_events (snd (process_events c (mkKeyEvent k Pressed)))
                                 (mkKeyEvent k Released))) f
       = flag c f).
Proof.
  intros H.
  specialize (H (set_flag (CameraController_new 10) Forward true) ForwardKey Forward eq_refl).
  discriminate H.
Qed.

Lemma acquire_failure_fatal_witness :
  w_surface_status w_lost <> Good
  /\ render startup_factory startup_app w_lost
       = Panic "called `Result::unwrap()` on an `Err` value"
           (log_world w_lost (Println "Creating render pass")).
Proof.
  assert (Hlost : w_surface_status w_lost <> Good) by discriminate.
  split; [exact Hlost|].
  exact (proj1 (acquire_failure_fatal startup_factory startup_app w_lost Hlost)).
Defined.

End Concrete.

(* ================================================================== *)
(** * Further properties of the driver and the factory *)

Section Extras.
Context `{CM : CameraModel}.

(** The surface configuration [GfxState::new] negotiates on [w]. *)
Definition default_config (w : World) : SurfaceConfiguration :=
  mkSurfaceConfiguration (w_preferred_format w) (fst (w_inner_size w)) (snd (w_inner_size w)).

(** A window size [surface.configure] accepts. *)
Definition valid_size (size : Z * Z) : Prop :=
  0 < fst size <= max_texture_dimension_2d /\ 0 < snd size <= max_texture_dimension_2d.

(** [resumed] from [Loading], with an adapter, a device, and a window size
    the surface accepts: the driver is [Ready] with the new window, the
    default surface configuration at the window's inner size (and the
    surface configured with it), a factory stored, a controller with every
    flag off and speed 10, and the camera literal at that size. *)
Theorem resumed_initialises (w : World) (Hadapter : w_adapter w = true)
    (Hdevice : w_device_ok w = true) (Hsize : valid_size (w_inner_size w)) :
  exists f w',
    resumed Loading w
      = Ok (Ready (mkGfxState (w_next w) (default_config w) (Some f)
                    (CameraController_new 10)
                    (camera_literal (fst (w_inner_size w)) (snd (w_inner_size w)))))
           w'
    /\ w_configured w' = Some (default_config w)
    /\ w_inner_size w' = w_inner_size w.
Proof.
  destruct Hsize as [Hw Hh].
  do 2 eexists. mrun. cbn. rewrite Hadapter. cbn. rewrite Hdevice. cbn.
  rewrite configure_error_ok by (cbn; lia). cbn.
  split; [reflexivity|]. auto.
Qed.

(** Right after [resumed] from [Loading] (adapter, device, accepted window
    size), the factory's screen-size buffer holds the window's inner size
    and its camera buffer holds the view-projection matrix of the driver's
    camera. *)
Theorem resumed_buffers_match_camera (w : World) (Hadapter : w_adapter w = true)
    (Hdevice : w_device_ok w = true) (Hsize : valid_size (w_inner_size w)) :
  exists app f w' ub,
    resumed Loading w = Ok (Ready app) w'
    /\ gpu_factory app = Some f
    /\ uniform_buffer f = [ub]
    /\ w_mem w' !! ub = Some (ScreenSize (width (surface_config app)) (height (surface_config app)))
    /\ w_mem w' !! camera_buffer f
         = Some (CameraData (build_view_projection_matrix (camera app)))
    /\ view_proj (camera_uniform f) = build_view_projection_matrix (camera app).
Proof.
  destruct Hsize as [Hw Hh].
  do 4 eexists. split.
  { mrun. cbn. rewrite Hadapter. cbn. rewrite Hdevice. cbn.
    rewrite configure_error_ok by (cbn; lia). cbn. reflexivity. }
  split; [reflexivity|]. split; [reflexivity|]. cbn.
  split; [|split; [|reflexivity]].
  - rewrite lookup_insert_ne by lia. apply lookup_insert_eq.
  - apply lookup_insert_eq.
Qed.

(** [resumed] from [Loading] without a suitable adapter panics with the
    [expect] message, after creating the window and before any device is
    created, any surface is configured or any buffer is written. *)
Theorem resumed_no_adapter_panics (w : World) (Hadapter : w_adapter w = false) :
  resumed Loading w
    = Panic "No suitable GPU adapters found on the system!"
        (log_world
           (log_world
              (mkWorld (w_mem w) (S (w_next w)) (w_configured w) (w_surface_status w)
                 (w_adapter w) (w_device_ok w) (w_preferred_format w) (w_inner_size w)
                 (w_trace w))
              (CreateWindow (w_next w)))
           (Println "async block")).
Proof. mrun. cbn. rewrite Hadapter. reflexivity. Qed.

(** [resumed] from [Loading] with an adapter but a failing
    [request_device] panics at its [unwrap], after the window and the
    adapter line and before any device is created, the surface is
    configured or any buffer is written. *)
Theorem resumed_no_device_panics (w : World) (Hadapter : w_adapter w = true)
    (Hdevice : w_device_ok w = false) :
  exists w',
    resumed Loading w
      = Panic "called `Result::unwrap()` on an `Err` value: Failed to create device" w'
    /\ w_trace w' = w_trace w ++
         [CreateWindow (w_next w); Println "async block"; Println "Using adapter"]
    /\ w_configured w' = w_configured w
    /\ w_mem w' = w_mem w.
Proof.
  eexists. mrun. cbn. rewrite Hadapter. cbn. rewrite Hdevice. cbn.
  split; [reflexivity|]. unfold log_world; cbn. rewrite <- ?app_assoc. auto.
Qed.

(** [GpuFactory::new] wires its objects as follows: bind group #0 binds the
    screen-size buffer at binding 0 with a fragment-visible layout, the
    camera bind group binds the camera buffer at binding 0 with a
    vertex-visible layout, the pipeline layout lists these two layouts in
    slot order, and the pipeline takes both stages from the one shader
    module (entry points [display_vs] and [display_fs]) with no vertex
    buffers; the factory has no vertex or index buffers. *)
Theorem factory_bindings (app : GfxState) (w : World) :
  exists f w' sh ub bgl cbgl p,
    GpuFactory_new app w = Ok f w'
    /\ shader f = [sh] /\ uniform_buffer f = [ub]
    /\ bind_group_layout f = [bgl]
    /\ bgl = [mkBindGroupLayoutEntry 0 FRAGMENT]
    /\ bind_group f = [mkBindGroup bgl [(0, ub)]]
    /\ cbgl = [mkBindGroupLayoutEntry 0 VERTEX]
    /\ camera_bind_group f = mkBindGroup cbgl [(0, camera_buffer f)]
    /\ pipeline_layout f = [[bgl; cbgl]]
    /\ pipeline f = [p]
    /\ rp_layout p = Some [bgl; cbgl]
    /\ rp_vertex p = mkVertexState sh "display_vs" []
    /\ option_map fs_module (rp_fragment p) = Some sh
    /\ option_map fs_entry_point (rp_fragment p) = Some "display_fs"%string
    /\ vertex_buffer f = [] /\ index_buffer f = [].
Proof.
  do 7 eexists. split; [mrun; reflexivity|].
  repeat split.
Qed.

(** A keyboard event in [Ready] is handed to the controller: the new
    controller is stored, nothing else of the state changes, a redraw is
    requested exactly when the controller reports the event handled, and
    neither GPU memory nor the surface is touched. *)
Theorem keyboard_input_step (app : GfxState) (ev : KeyEvent) (syn : bool) (w : World) :
  let '(handled, ctl) := process_events (camera_controller app) ev in
  window_event (Ready app) (KeyboardInput ev syn) w
    = Ok (Ready (mkGfxState (window app) (surface_config app) (gpu_factory app)
                   ctl (camera app)))
         (if handled
          then log_world (log_world w (Println "KeyboardInput")) RequestRedraw
          else log_world w (Println "KeyboardInput")).
Proof.
  mrun. destruct (process_events (camera_controller app) ev) as [[|] ctl]; reflexivity.
Qed.

(** An unrecognized key in [Ready] changes no state and requests no redraw:
    it only logs. *)
Theorem unrecognized_key_no_redraw (app : GfxState) (code : nat) (st : ElementState)
    (syn : bool) (w : World) :
  window_event (Ready app) (KeyboardInput (mkKeyEvent (OtherKey code) st) syn) w
    = Ok (Ready app) (log_world w (Println "KeyboardInput")).
Proof. destruct app. reflexivity. Qed.

(** A factory built by [GpuFactory::new] (with any camera uniform stored
    since, the factory's only mutable part), rendered on a surface
    configured with [Bgra8UnormSrgb] whose image is available: [render]
    records exactly one pass (clear to black, the pipeline, bind group #0
    at 0, the camera bind group at 1, one draw of vertices 0..6 and
    instances 0..1, no vertex or index buffer), which passes wgpu's
    checks; it submits that single command buffer and presents the
    acquired frame. *)
Theorem render_one_pass (app0 : GfxState) (w0 : World) (f : GpuFactory) (w1 : World)
    (Hnew : GpuFactory_new app0 w0 = Ok f w1)
    (cu : CameraUniform) (app : GfxState) (w : World)
    (Hgood : w_surface_status w = Good)
    (Hfmt : option_map format (w_configured w) = Some Bgra8UnormSrgb) :
  exists p bg0 frame w',
    pipeline f = [p] /\ bind_group f = [bg0]
    /\ render (set_camera_uniform f cu) app w = Ok tt w'
    /\ w_trace w' = w_trace w ++
         [Println "Creating render pass"; AcquireFrame frame; Println "Drawing";
          Submit [[mkRenderPass
                     (mkRenderPassDescriptor (Some "display pass"%string)
                        [Some (mkRenderPassColorAttachment frame None
                                 (Clear Color_BLACK) Store)]
                        None)
                     [SetPipeline p; SetBindGroup 0 bg0 [];
                      SetBindGroup 1 (camera_bind_group f) [];
                      Draw (0, 6) (0, 1)]]];
          Present frame].
Proof.
  destruct (w_configured w) as [cfg|] eqn:Ec; [|discriminate]. injection Hfmt as Hfmt.
  assert (Hv : validate_pass (format cfg) (display_pass_commands (set_camera_uniform f cu))
               = true).
  { rewrite (factory_pass_valid_gen app0 w0 f w1 Hnew cu), Hfmt. reflexivity. }
  destruct (render_frame_gen _ app w cfg Hgood Ec Hv) as (w' & E & Ht & _).
  mrun_in Hnew. injection Hnew as Hf _. subst f.
  do 4 eexists. split; [reflexivity|]. split; [reflexivity|]. split; [exact E|].
  rewrite Ht. reflexivity.
Qed.

(** Any factory whose display pass fails wgpu's checks at the surface's
    format: [render] acquires the frame, prints "Drawing" and panics when
    the pass ends, with no submit and no present. *)
Theorem render_validation_failure (f : GpuFactory) (app : GfxState) (w : World)
    (cfg : SurfaceConfiguration)
    (Hgood : w_surface_status w = Good) (Hcfg : w_configured w = Some cfg)
    (Hinvalid : validate_pass (format cfg) (display_pass_commands f) = false) :
  exists w',
    render f app w = Panic "wgpu error: Validation Error" w'
    /\ w_trace w' = w_trace w ++
         [Println "Creating render pass"; AcquireFrame (w_next w); Println "Drawing"]
    /\ w_mem w' = w_mem w
    /\ w_configured w' = w_configured w.
Proof. exact (render_invalid_gen f app w cfg Hgood Hcfg Hinvalid). Qed.

(** On a factory built by [GpuFactory::new], with any camera uniform
    stored since, the display pass passes wgpu's checks exactly when the
    frame's format is [Bgra8UnormSrgb]. *)
Theorem factory_pass_valid_iff (app0 : GfxState) (w0 : World) (f : GpuFactory) (w1 : World)
    (Hnew : GpuFactory_new app0 w0 = Ok f w1) (cu : CameraUniform) (fmt : TextureFormat) :
  validate_pass fmt (display_pass_commands (set_camera_uniform f cu)) = true
  <-> fmt = Bgra8UnormSrgb.
Proof.
  rewrite (factory_pass_valid_gen app0 w0 f w1 Hnew cu fmt).
  destruct fmt; cbn; split; intros H; first [reflexivity | discriminate H].
Qed.

(** A [Resized (W, H)] event in [Ready] with a size the surface accepts
    stores a surface configuration of exactly [W] x [H] (same format),
    configures the surface with it and requests a redraw, in that order,
    and returns to [Ready]. *)
Theorem resized_sets_config (app : GfxState) (W H : Z) (w : World)
    (HW : 0 < W <= max_texture_dimension_2d) (HH : 0 < H <= max_texture_dimension_2d) :
  let cfg := mkSurfaceConfiguration (format (surface_config app)) W H in
  window_event (Ready app) (Resized W H) w
    = Ok (Ready (set_surface_config app cfg))
         (log_world
            (log_world (configured_world (log_world w (Println "Resized")) cfg)
               (Configure cfg))
            RequestRedraw)
  /\ width (surface_config (set_surface_config app cfg)) = W
  /\ height (surface_config (set_surface_config app cfg)) = H.
Proof.
  intros cfg. mrun. cbn. rewrite configure_error_ok by (cbn; lia).
  repeat split.
Qed.

(** [render] never writes GPU memory, reconfigures the surface or resizes
    the window, whether it returns or panics. *)
Lemma render_world (f : GpuFactory) (app : GfxState) (w : World) :
  let w' := result_world (render f app w) in
  w_mem w' = w_mem w /\ w_configured w' = w_configured w
  /\ w_inner_size w' = w_inner_size w.
Proof.
  mrun. cbn -[validate_pass].
  destruct (w_surface_status w); cbn -[validate_pass]; auto.
  destruct (w_configured w) eqn:Ec; cbn -[validate_pass]; auto.
  destruct (validate_pass _ _); cbn; auto.
Qed.

(** A redraw in [Ready], on a configured surface with an image available
    and a factory whose display pass passes wgpu's checks at the surface's
    format: the camera advances with the (unchanged) controller, the
    recomputed camera uniform is stored in the factory, window and surface
    configuration are kept, and that frame is rendered with the updated
    factory; GPU memory and the surface configuration are untouched. *)
Theorem redraw_step (app : GfxState) (f : GpuFactory) (w : World) (cfg : SurfaceConfiguration)
    (Hf : gpu_factory app = Some f) (Hgood : w_surface_status w = Good)
    (Hcfg : w_configured w = Some cfg)
    (Hvalid : validate_pass (format cfg) (display_pass_commands f) = true) :
  let cam := update_camera (camera_controller app) (camera app) in
  let f' := set_camera_uniform f (mkCameraUniform (build_view_projection_matrix cam)) in
  exists w',
    window_event (Ready app) RedrawRequested w
      = Ok (Ready (mkGfxState (window app) (surface_config app) (Some f')
                     (camera_controller app) cam)) w'
    /\ w_trace w' = w_trace w ++
         [Println "RedrawRequested"; Println "Creating render pass";
          AcquireFrame (w_next w); Println "Drawing";
          Submit [[mkRenderPass (display_pass_descriptor (w_next w))
                                (display_pass_commands f')]];
          Present (w_next w)]
    /\ w_mem w' = w_mem w
    /\ w_configured w' = w_configured w.
Proof.
  intros cam f'.
  cbv [window_event mbind M_bind mret M_ret println emit unwrap_option]. rewrite Hf.
  cbn -[render].
  match goal with |- context [render ?a ?b ?c] =>
    destruct (render_frame_gen a b c cfg Hgood Hcfg Hvalid) as (w' & E & Ht & _ & Hm & Hc & _);
    rewrite E end.
  exists w'. split; [reflexivity|]. rewrite Ht. cbn. rewrite <- app_assoc.
  split; [reflexivity|]. split; [exact Hm|exact Hc].
Qed.

(** What holds in every [Ready] state reached from the start-up world [w0]. *)
Definition ready_inv (w0 : World) (app : GfxState) (w : World) : Prop :=
  w_inner_size w = w_inner_size w0
  /\ exists f ub,
       gpu_factory app = Some f
       /\ uniform_buffer f = [ub]
       /\ w_configured w = Some (surface_config app)
       /\ w_mem w !! ub = Some (ScreenSize (fst (w_inner_size w0)) (snd (w_inner_size w0)))
       /\ w_mem w !! camera_buffer f
            = Some (CameraData (build_view_projection_matrix
                                  (camera_literal (fst (w_inner_size w0))
                                                  (snd (w_inner_size w0))))).

Lemma resumed_loading_inv (w0 w : World) (s' : EntryOn) (w' : World) :
  w_inner_size w = w_inner_size w0 ->
  resumed Loading w = Ok s' w' -> exists app, s' = Ready app /\ ready_inv w0 app w'.
Proof.
  intros Hs. mrun. cbn.
  destruct (w_adapter w); cbn; [|discriminate].
  destruct (w_device_ok w); cbn; [|discriminate].
  destruct (configure_error _); cbn; [discriminate|].
  intros H. injection H as <- <-.
  eexists. split; [reflexivity|]. split; [exact Hs|].
  do 2 eexists. split; [reflexivity|]. split; [reflexivity|].
  split; [reflexivity|]. cbn. rewrite <- Hs. split.
  - rewrite lookup_insert_ne by lia. apply lookup_insert_eq.
  - apply lookup_insert_eq.
Qed.

Lemma window_event_ready_inv (w0 : World) (app : GfxState) (w : World)
    (ev : WindowEvent) (s' : EntryOn) (w' : World) :
  ready_inv w0 app w ->
  window_event (Ready app) ev w = Ok s' w' -> exists app', s' = Ready app' /\ ready_inv w0 app' w'.
Proof.
  intros [Hs (f & ub & Hf & Hub & Hcfg & Hm1 & Hm2)].
  destruct ev as [W H| |kev syn| |n].
  - mrun. cbn. destruct (configure_error _); cbn; [discriminate|].
    intros E. injection E as <- <-. eexists. split; [reflexivity|].
    split; [exact Hs|]. exists f, ub. cbn. auto.
  - cbv [window_event mbind M_bind mret M_ret println emit unwrap_option]. rewrite Hf.
    cbn -[render].
    match goal with |- context [render ?a ?b ?c] =>
      pose proof (render_world a b c) as (Rm & Rc & Rs); destruct (render a b c) end;
      [|discriminate].
    intros E. injection E as <- <-. simpl in Rm, Rc, Rs.
    eexists. split; [reflexivity|]. split; [congruence|].
    exists (set_camera_uniform f
              (update_view_proj (camera_uniform f)
                 (update_camera (camera_controller app) (camera app)))), ub.
    cbn. rewrite Rm, Rc. auto.
  - mrun. destruct (process_events (camera_controller app) kev) as [[|] ctl];
      intros E; injection E as <- <-; eexists; (split; [reflexivity|]);
      (split; [exact Hs|]); exists f, ub; cbn; auto.
  - intros E. injection E as <- <-. eexists. split; [reflexivity|].
    split; [exact Hs|]. exists f, ub. cbn. auto.
  - intros E. injection E as <- <-. eexists. split; [reflexivity|].
    split; [exact Hs|]. exists f, ub. auto.
Qed.

Lemma run_ready_inv (w0 : World) :
  forall (es : list AppEvent) (s : EntryOn) (w : World) (s' : EntryOn) (w' : World),
    (s = Loading /\ w_inner_size w = w_inner_size w0)
    \/ (exists app, s = Ready app /\ ready_inv w0 app w) ->
    run s es w = Ok s' w' ->
    (s' = Loading /\ w_inner_size w' = w_inner_size w0)
    \/ (exists app', s' = Ready app' /\ ready_inv w0 app' w').
Proof.
  induction es as [|e es IH]; intros s w s' w' Hpre Hrun.
  - injection Hrun as <- <-. exact Hpre.
  - revert Hrun. cbn [run]. cbv [mbind M_bind].
    destruct (handle s e w) as [s1 w1|msg w1] eqn:E; [|discriminate].
    apply IH. destruct Hpre as [[-> Hs] | (app & -> & Hinv)]; destruct e as [|ev].
    + right. eapply resumed_loading_inv; eauto.
    + left. cbn in E. injection E as <- <-. auto.
    + right. cbn in E. injection E as <- <-. eauto.
    + right. eapply window_event_ready_inv; eauto.
Qed.

(** Every [Ready] state reached from start-up by any sequence of callbacks
    has its factory stored (so the [unwrap]s of a redraw succeed), has the
    surface configured with the stored surface configuration, keeps the
    screen-size buffer at the start-up window size even after resizes, and
    keeps the camera buffer at the start-up camera's matrix even after the
    camera moved. *)
Theorem reachable_ready_inv (es : list AppEvent) (w : World) (app : GfxState) (w' : World)
    (Hrun : run Loading es w = Ok (Ready app) w') :
  exists f ub,
    gpu_factory app = Some f
    /\ uniform_buffer f = [ub]
    /\ w_configured w' = Some (surface_config app)
    /\ w_mem w' !! ub = Some (ScreenSize (fst (w_inner_size w)) (snd (w_inner_size w)))
    /\ w_mem w' !! camera_buffer f
         = Some (CameraData (build_view_projection_matrix
                               (camera_literal (fst (w_inner_size w))
                                               (snd (w_inner_size w))))).
Proof.
  destruct (run_ready_inv w es Loading w (Ready app) w' (or_introl (conj eq_refl eq_refl)) Hrun)
    as [[Habs _] | (app' & Heq & _ & Hinv)]; [discriminate|].
  injection Heq as <-. exact Hinv.
Qed.

End Extras.

Module ConcreteExtras.
#[local] Existing Instance toy_camera.
Import Concrete.

Definition w_no_adapter : World :=
  mkWorld ∅ 0 None Good false true Bgra8UnormSrgb (128, 128) [].
Definition w_no_device : World :=
  mkWorld ∅ 0 None Good true false Bgra8UnormSrgb (128, 128) [].

Lemma w_init_size : valid_size (w_inner_size w_init).
Proof. unfold valid_size, max_texture_dimension_2d. cbn. lia. Qed.

Lemma resumed_initialises_witness :
  w_adapter w_init = true /\ w_device_ok w_init = true /\ valid_size (w_inner_size w_init)
  /\ exists f w',
    resumed Loading w_init
      = Ok (Ready (mkGfxState (w_next w_init) (default_config w_init) (Some f)
                    (CameraController_new 10)
                    (camera_literal (fst (w_inner_size w_init)) (snd (w_inner_size w_init)))))
           w'
    /\ w_configured w' = Some (default_config w_init)
    /\ w_inner_size w' = w_inner_size w_init.
Proof.
  exact (conj eq_refl (conj eq_refl (conj w_init_size
           (resumed_initialises w_init eq_refl eq_refl w_init_size)))).
Defined.

Lemma resumed_buffers_match_camera_witness :
  w_adapter w_init = true /\ w_device_ok w_init = true /\ valid_size (w_inner_size w_init)
  /\ exists app f w' ub,
    resumed Loading w_init = Ok (Ready app) w'
    /\ gpu_factory app = Some f
    /\ uniform_buffer f = [ub]
    /\ w_mem w' !! ub = Some (ScreenSize (width (surface_config app)) (height (surface_config app)))
    /\ w_mem w' !! camera_buffer f
         = Some (CameraData (build_view_projection_matrix (camera app)))
    /\ view_proj (camera_uniform f) = build_view_projection_matrix (camera app).
Proof.
  exact (conj eq_refl (conj eq_refl (conj w_init_size
           (resumed_buffers_match_camera w_init eq_refl eq_refl w_init_size)))).
Defined.

Lemma resumed_no_adapter_panics_witness :
  w_adapter w_no_adapter = false
  /\ resumed Loading w_no_adapter
    = Panic "No suitable GPU adapters found on the system!"
        (log_world
           (log_world
              (mkWorld (w_mem w_no_adapter) (S (w_next w_no_adapter))
                 (w_configured w_no_adapter) (w_surface_status w_no_adapter)
                 (w_adapter w_no_adapter) (w_device_ok w_no_adapter)
                 (w_preferred_format w_no_adapter)
                 (w_inner_size w_no_adapter) (w_trace w_no_adapter))
              (CreateWindow (w_next w_no_adapter)))
           (Println "async block")).
Proof. exact (conj eq_refl (resumed_no_adapter_panics w_no_adapter eq_refl)). Defined.

Lemma resumed_no_device_panics_witness :
  w_adapter w_no_device = true /\ w_device_ok w_no_device = false
  /\ exists w',
    resumed Loading w_no_device
      = Panic "called `Result::unwrap()` on an `Err` value: Failed to create device" w'
    /\ w_trace w' = w_trace w_no_device ++
         [CreateWindow (w_next w_no_device); Println "async block"; Println "Using adapter"]
    /\ w_configured w' = w_configured w_no_device
    /\ w_mem w' = w_mem w_no_device.
Proof.
  exact (conj eq_refl (conj eq_refl (resumed_no_device_panics w_no_device eq_refl eq_refl))).
Defined.

Lemma ready_world_good : w_surface_status ready_world = Good.
Proof. vm_compute. reflexivity. Qed.

Lemma ready_world_srgb : option_map format (w_configured ready_world) = Some Bgra8UnormSrgb.
Proof. vm_compute. reflexivity. Qed.

Lemma render_one_pass_witness :
  GpuFactory_new startup_app w_init = Ok startup_factory startup_world
  /\ w_surface_status ready_world = Good
  /\ option_map format (w_configured ready_world) = Some Bgra8UnormSrgb
  /\ exists p bg0 frame w',
    pipeline startup_factory = [p] /\ bind_group startup_factory = [bg0]
    /\ render (set_camera_uniform startup_factory CameraUniform_new) ready_app ready_world
         = Ok tt w'
    /\ w_trace w' = w_trace ready_world ++
         [Println "Creating render pass"; AcquireFrame frame; Println "Drawing";
          Submit [[mkRenderPass
                     (mkRenderPassDescriptor (Some "display pass"%string)
                        [Some (mkRenderPassColorAttachment frame None
                                 (Clear Color_BLACK) Store)]
                        None)
                     [SetPipeline p; SetBindGroup 0 bg0 [];
                      SetBindGroup 1 (camera_bind_group startup_factory) [];
                      Draw (0, 6) (0, 1)]]];
          Present frame].
Proof.
  exact (conj startup_factory_eq (conj ready_world_good (conj ready_world_srgb
           (render_one_pass startup_app w_init startup_factory startup_world
              startup_factory_eq CameraUniform_new ready_app ready_world
              ready_world_good ready_world_srgb)))).
Defined.

(** [w_unorm] with its surface configured in [Bgra8Unorm]. *)
Definition unorm_cfg : SurfaceConfiguration := mkSurfaceConfiguration Bgra8Unorm 128 128.
Definition w_unorm_configured : World := configured_world w_unorm unorm_cfg.

Lemma render_validation_failure_witness :
  w_surface_status w_unorm_configured = Good
  /\ w_configured w_unorm_configured = Some unorm_cfg
  /\ validate_pass (format unorm_cfg) (display_pass_commands startup_factory) = false
  /\ exists w',
    render startup_factory startup_app w_unorm_configured = Panic "wgpu error: Validation Error" w'
    /\ w_trace w' = w_trace w_unorm_configured ++
         [Println "Creating render pass"; AcquireFrame (w_next w_unorm_configured);
          Println "Drawing"]
    /\ w_mem w' = w_mem w_unorm_configured
    /\ w_configured w' = w_configured w_unorm_configured.
Proof.
  assert (Hinv : validate_pass (format unorm_cfg) (display_pass_commands startup_factory) = false)
    by (vm_compute; reflexivity).
  exact (conj eq_refl (conj eq_refl (conj Hinv
           (render_validation_failure startup_factory startup_app w_unorm_configured unorm_cfg
              eq_refl eq_refl Hinv)))).
Defined.

Lemma factory_pass_valid_iff_witness :
  GpuFactory_new startup_app w_init = Ok startup_factory startup_world
  /\ (validate_pass Bgra8Unorm
        (display_pass_commands (set_camera_uniform startup_factory CameraUniform_new)) = true
      <-> Bgra8Unorm = Bgra8UnormSrgb).
Proof.
  exact (conj startup_factory_eq
           (factory_pass_valid_iff startup_app w_init startup_factory startup_world
              startup_factory_eq CameraUniform_new Bgra8Unorm)).
Defined.

Lemma resized_sets_config_witness :
  (0 < 300 <= max_texture_dimension_2d) /\ (0 < 200 <= max_texture_dimension_2d)
  /\ let cfg := mkSurfaceConfiguration (format (surface_config ready_app)) 300 200 in
     window_event (Ready ready_app) (Resized 300 200) ready_world
       = Ok (Ready (set_surface_config ready_app cfg))
            (log_world
               (log_world (configured_world (log_world ready_world (Println "Resized")) cfg)
                  (Configure cfg))
               RequestRedraw)
     /\ width (surface_config (set_surface_config ready_app cfg)) = 300
     /\ height (surface_config (set_surface_config ready_app cfg)) = 200.
Proof.
  assert (HW : 0 < 300 <= max_texture_dimension_2d)
    by (unfold max_texture_dimension_2d; lia).
  assert (HH : 0 < 200 <= max_texture_dimension_2d)
    by (unfold max_texture_dimension_2d; lia).
  exact (conj HW (conj HH (resized_sets_config ready_app 300 200 ready_world HW HH))).
Defined.

Definition ready_factory : GpuFactory :=
  match gpu_factory ready_app with Some f => f | None => startup_factory end.

Lemma ready_cfg : w_configured ready_world = Some (surface_config ready_app).
Proof. vm_compute. reflexivity. Qed.

Lemma ready_valid :
  validate_pass (format (surface_config ready_app)) (display_pass_commands ready_factory) = true.
Proof. vm_compute. reflexivity. Qed.

Lemma redraw_step_witness :
  gpu_factory ready_app = Some ready_factory
  /\ w_surface_status ready_world = Good
  /\ w_configured ready_world = Some (surface_config ready_app)
  /\ validate_pass (format (surface_config ready_app)) (display_pass_commands ready_factory) = true
  /\ let cam := update_camera (camera_controller ready_app) (camera ready_app) in
     let f' := set_camera_uniform ready_factory
                 (mkCameraUniform (build_view_projection_matrix cam)) in
     exists w',
       window_event (Ready ready_app) RedrawRequested ready_world
         = Ok (Ready (mkGfxState (window ready_app) (surface_config ready_app) (Some f')
                        (camera_controller ready_app) cam)) w'
       /\ w_trace w' = w_trace ready_world ++
            [Println "RedrawRequested"; Println "Creating render pass";
             AcquireFrame (w_next ready_world); Println "Drawing";
             Submit [[mkRenderPass (display_pass_descriptor (w_next ready_world))
                                   (display_pass_commands f')]];
             Present (w_next ready_world)]
       /\ w_mem w' = w_mem ready_world
       /\ w_configured w' = w_configured ready_world.
Proof.
  assert (Hf : gpu_factory ready_app = Some ready_factory) by (vm_compute; reflexivity).
  exact (conj Hf (conj ready_world_good (conj ready_cfg (conj ready_valid
           (redraw_step ready_app ready_factory ready_world (surface_config ready_app)
              Hf ready_world_good ready_cfg ready_valid))))).
Defined.

(** Start-up, a resize, a backward key press, a redraw. *)
Definition demo_events : list AppEvent :=
  [Resumed; WinEvent (Resized 300 200); backward_press; WinEvent RedrawRequested].

Definition demo_app : GfxState :=
  match run Loading demo_events w_init with
  | Ok (Ready app) _ => app
  | _ => startup_app
  end.

Definition demo_world : World := result_world (run Loading demo_events w_init).

Lemma demo_run_eq : run Loading demo_events w_init = Ok (Ready demo_app) demo_world.
Proof. vm_compute. reflexivity. Qed.

Lemma reachable_ready_inv_witness :
  run Loading demo_events w_init = Ok (Ready demo_app) demo_world
  /\ exists f ub,
    gpu_factory demo_app = Some f
    /\ uniform_buffer f = [ub]
    /\ w_configured demo_world = Some (surface_config demo_app)
    /\ w_mem demo_world !! ub
         = Some (ScreenSize (fst (w_inner_size w_init)) (snd (w_inner_size w_init)))
    /\ w_mem demo_world !! camera_buffer f
         = Some (CameraData (build_view_projection_matrix
                               (camera_literal (fst (w_inner_size w_init))
                                               (snd (w_inner_size w_init))))).
Proof.
  exact (conj demo_run_eq
           (reachable_ready_inv demo_events w_init demo_app demo_world demo_run_eq)).
Defined.

End ConcreteExtras.
